(** * ezdxf.math.vector: the immutable 3D [Vector] kernel

    A shallow embedding of [src/ezdxf/math/vector.py].

    - Python floats are IEEE-754 binary64 values: [spec_float] of the
      Standard Library with precision 53 and maximal exponent 1024, whose
      operations are plain (executable) functions.
    - Python values reaching the duck-typed entry points (the argument tuple,
      [other], [factor], [index]) are the inductive type [pyval].
    - Raising code returns [result]: [Ok v] or [Raise e]. *)

From Stdlib Require Import ZArith List Bool String Lia.
From Stdlib Require Import SpecFloat PrimFloat FloatOps.
Import ListNotations.
Local Open Scope Z_scope.
Set Warnings "-register-all,-inexact-float".

(** ** Binary64 floats *)

Module Float.

(** Binary64 values.  [spec_float] has a single NaN: the sign bit and the
    payload that a NaN carries in Python are not represented, so that a
    statement about a float that is a NaN says that it is a NaN and no
    more. *)
Definition float : Type := spec_float.

Definition add : float -> float -> float := SFadd prec emax.
Definition sub : float -> float -> float := SFsub prec emax.
Definition mul : float -> float -> float := SFmul prec emax.
Definition neg : float -> float := SFopp.
Definition fabs : float -> float := SFabs.
Definition eqb : float -> float -> bool := SFeqb.
Definition ltb : float -> float -> bool := SFltb.
Definition leb : float -> float -> bool := SFleb.

(** A decimal literal of the source, rounded to binary64 by the parser. *)
Definition lit (f : PrimFloat.float) : float := Prim2SF f.

(** The binary64 value nearest to an integer (ties to even); an infinity
    when the integer is beyond the binary64 range. *)
Definition of_Z (n : Z) : float := binary_normalize prec emax n 0 false.

Definition zero : float := S754_zero false.
Definition nan : float := S754_nan.
Definition inf : float := S754_infinity false.

Definition is_nan (f : float) : bool :=
  match f with S754_nan => true | _ => false end.
Definition is_inf (f : float) : bool :=
  match f with S754_infinity _ => true | _ => false end.
Definition is_zero (f : float) : bool :=
  match f with S754_zero _ => true | _ => false end.
Definition is_finite (f : float) : bool :=
  match f with S754_zero _ | S754_finite _ _ _ => true | _ => false end.

End Float.

Import Float.

Declare Scope pyfloat_scope.
Delimit Scope pyfloat_scope with pf.
Infix "+" := Float.add : pyfloat_scope.
Infix "-" := Float.sub : pyfloat_scope.
Infix "*" := Float.mul : pyfloat_scope.
Notation "- x" := (Float.neg x) : pyfloat_scope.
Infix "==" := Float.eqb (at level 70, no associativity) : pyfloat_scope.
Infix "<" := Float.ltb : pyfloat_scope.
Infix "<=" := Float.leb : pyfloat_scope.

(** ** Exceptions and results *)

Inductive exn : Type :=
| ValueError (msg : string)
| TypeError
| IndexError
| OverflowError.

Inductive result (A : Type) : Type :=
| Ok (a : A)
| Raise (e : exn).

Arguments Ok {A} a.
Arguments Raise {A} e.

Definition bind {A B : Type} (r : result A) (k : A -> result B) : result B :=
  match r with
  | Ok a => k a
  | Raise e => Raise e
  end.

Notation "x <- r ;; k" := (bind r (fun x => k))
  (at level 61, r at next level, right associativity).
Notation "' p <- r ;; k" := (bind r (fun p => k))
  (at level 61, p pattern, r at next level, right associativity).

Definition is_ValueError {A : Type} (r : result A) : bool :=
  match r with
  | Raise (ValueError _) => true
  | _ => false
  end.

(** The two [ValueError] messages that occur: the one [decompose] builds
    and the one of a failed unpacking (arguments of the messages elided). *)
Definition invalid_arguments : string := "invalid arguments".
Definition not_enough_values : string := "not enough values to unpack".

(** ** Vectors and Python values *)

Record Vector : Type := mkVector { _x : float; _y : float; _z : float }.

Inductive pyval : Type :=
| PyNone
| PyInt (n : Z)
| PyFloat (f : float)
| PySeq (items : list pyval)     (* a tuple or a list *)
| PyVector (v : Vector).         (* an instance of Vector *)

(** [float(v)]: a float is itself, an int is rounded to nearest and
    overflows with [OverflowError], anything else is a [TypeError]. *)
Definition py_float (v : pyval) : result float :=
  match v with
  | PyFloat f => Ok f
  | PyInt n => if is_inf (of_Z n) then Raise OverflowError else Ok (of_Z n)
  | _ => Raise TypeError
  end.

(** [isinstance(v, (float, int))] *)
Definition is_scalar (v : pyval) : bool :=
  match v with
  | PyInt _ | PyFloat _ => true
  | _ => false
  end.

(** The starred unpacking [x, y, *z = data]: a non-iterable is a [TypeError],
    fewer than two items a [ValueError]. *)
Definition unpack_x_y_star (data : pyval) : result (pyval * pyval * list pyval) :=
  match data with
  | PySeq (x :: y :: z) => Ok (x, y, z)
  | PySeq _ => Raise (ValueError not_enough_values)
  | PyVector v => Ok (PyFloat (_x v), PyFloat (_y v), [PyFloat (_z v)])
  | _ => Raise TypeError
  end.

Module VectorImpl.

Definition Triple : Type := (float * float * float)%type.

(** [Vector.decompose]: the argument tuple as a list *)
Definition decompose (args : list pyval) : result Triple :=
  match args with
  | [] => Ok (zero, zero, zero)
  | [data] =>
      match data with
      | PyVector v => Ok (_x v, _y v, _z v)
      | _ =>
          match unpack_x_y_star data with
          | Raise TypeError => Raise (ValueError invalid_arguments)
          | Raise e => Raise e
          | Ok (x, y, z) =>
              let z := match z with
                       | z0 :: _ => z0
                       | [] => PyFloat zero
                       end in
              fx <- py_float x ;;
              fy <- py_float y ;;
              fz <- py_float z ;;
              Ok (fx, fy, fz)
          end
      end
  | [x; y] =>
      fx <- py_float x ;;
      fy <- py_float y ;;
      Ok (fx, fy, zero)
  | [x; y; z] =>
      fx <- py_float x ;;
      fy <- py_float y ;;
      fz <- py_float z ;;
      Ok (fx, fy, fz)
  | _ => Raise (ValueError invalid_arguments)
  end.

(** [Vector.__init__], the constructor call on an argument tuple *)
Definition __init__ (args : list pyval) : result Vector :=
  '(x, y, z) <- decompose args ;;
  Ok (mkVector x y z).

(** The constructor on three floats, [self.__class__(a, b, c)] where the
    arguments are floats already: [float] is the identity on them. *)
Definition new (a b c : float) : Vector := mkVector a b c.

(** [Vector.xyz] *)
Definition xyz (self : Vector) : Triple := (_x self, _y self, _z self).

(** Indexing a 3-tuple: negative indices count from the end. *)
Definition tuple3_getitem (t : Triple) (index : Z) : result float :=
  let '(a, b, c) := t in
  let i := if index <? 0 then index + 3 else index in
  if i =? 0 then Ok a
  else if i =? 1 then Ok b
  else if i =? 2 then Ok c
  else Raise IndexError.

(** [Vector.__getitem__] *)
Definition __getitem__ (self : Vector) (index : Z) : result float :=
  tuple3_getitem (xyz self) index.

(** [math.isclose(a, b, rel_tol=rel_tol, abs_tol=abs_tol)] for
    non-negative tolerances *)
Definition math_isclose (a b rel_tol abs_tol : float) : bool :=
  if (a == b)%pf then true
  else if is_inf a || is_inf b then false
  else
    let diff := fabs (b - a)%pf in
    (diff <= fabs (rel_tol * b))%pf
    || (diff <= fabs (rel_tol * a))%pf
    || (diff <= abs_tol)%pf.

(** [math.isclose]'s default relative tolerance, [1e-09] *)
Definition default_rel_tol : float := lit 1e-9.

(** Module level: [isclose = partial(math.isclose, abs_tol=1e-14)];
    [rel_tol] keeps its default. *)
Definition isclose (a b : float) : bool :=
  math_isclose a b default_rel_tol (lit 1e-14).

(** [Vector.__eq__] *)
Definition __eq__ (self : Vector) (other : pyval) : result bool :=
  '(x, y, z) <- decompose [other] ;;
  Ok (isclose (_x self) x && isclose (_y self) y && isclose (_z self) z).

(** [Vector.__lt__] *)
Definition __lt__ (self : Vector) (other : pyval) : result bool :=
  '(x, y, z) <- decompose [other] ;;
  Ok (if (_x self == x)%pf then
        if (_y self == y)%pf then (_z self < z)%pf
        else (_y self < y)%pf
      else (_x self < x)%pf).

(** [Vector.__add__] *)
Definition __add__ (self : Vector) (other : pyval) : result Vector :=
  if is_scalar other then
    scalar <- py_float other ;;
    Ok (new (_x self + scalar) (_y self + scalar) (_z self + scalar))%pf
  else
    '(x, y, z) <- decompose [other] ;;
    Ok (new (_x self + x) (_y self + y) (_z self + z))%pf.

(** [Vector.__radd__] *)
Definition __radd__ (self : Vector) (other : pyval) : result Vector :=
  __add__ self other.

(** [Vector.__sub__] *)
Definition __sub__ (self : Vector) (other : pyval) : result Vector :=
  if is_scalar other then
    scalar <- py_float other ;;
    Ok (new (_x self - scalar) (_y self - scalar) (_z self - scalar))%pf
  else
    '(x, y, z) <- decompose [other] ;;
    Ok (new (_x self - x) (_y self - y) (_z self - z))%pf.

(** [Vector.__rsub__]; the y component of the scalar branch is
    [scalar - self._y - scalar], as the source has it. *)
Definition __rsub__ (self : Vector) (other : pyval) : result Vector :=
  if is_scalar other then
    scalar <- py_float other ;;
    Ok (new (scalar - _x self) (scalar - _y self - scalar) (scalar - _z self))%pf
  else
    '(x, y, z) <- decompose [other] ;;
    Ok (new (x - _x self) (y - _y self) (z - _z self))%pf.

(** [Vector.__mul__] *)
Definition __mul__ (self : Vector) (other : pyval) : result Vector :=
  scalar <- py_float other ;;
  Ok (new (_x self * scalar) (_y self * scalar) (_z self * scalar))%pf.

(** [Vector.__rmul__] *)
Definition __rmul__ (self : Vector) (other : pyval) : result Vector :=
  __mul__ self other.

(** [Vector.reversed], also [__neg__] *)
Definition reversed (self : Vector) : result Vector :=
  __mul__ self (PyFloat (lit (-1))).

(** [Vector.orthogonal] *)
Definition orthogonal (self : Vector) (ccw : bool) : Vector :=
  if ccw then new (- _y self)%pf (_x self) (_z self)
  else new (_y self) (- _x self)%pf (_z self).

(** [Vector.lerp] *)
Definition lerp (self : Vector) (other factor : pyval) : result Vector :=
  v <- __init__ [other] ;;
  d0 <- __sub__ v (PyVector self) ;;
  f <- py_float factor ;;
  d <- __mul__ d0 (PyFloat f) ;;
  __add__ self (PyVector d).

(** [Vector.magnitude_square] *)
Definition magnitude_square (self : Vector) : float :=
  let '(x, y, z) := (_x self, _y self, _z self) in
  (x * x + y * y + z * z)%pf.

End VectorImpl.

Import VectorImpl.

(** ** The [math] module

    [math.cos], [math.sin], [math.atan2], [math.hypot] and the float power
    operator end in the platform's C library, whose results are not fixed by
    the language.  The C functions are parameters ([Libm]); the checks the
    interpreter wraps around them are modelled as they are. *)

Record Libm : Type := mkLibm {
  libm_cos : float -> float;
  libm_sin : float -> float;
  libm_atan2 : float -> float -> float;
  libm_hypot : float -> float -> float;
  libm_pow : float -> float -> float
}.

Definition math_domain_error : string := "math domain error".

Module Math.
Section WithLibm.

Variable m : Libm.

(** The wrapper of the one-argument functions that cannot overflow. *)
Definition math_1 (func : float -> float) (x : float) : result float :=
  let r := func x in
  if is_nan r && negb (is_nan x) then Raise (ValueError math_domain_error)
  else if is_inf r && is_finite x then Raise (ValueError math_domain_error)
  else Ok r.

(** The result check of the two-argument functions. *)
Definition math_2_check (x y r : float) : result float :=
  if is_nan r then
    if negb (is_nan x) && negb (is_nan y)
    then Raise (ValueError math_domain_error) else Ok r
  else if is_inf r then
    if is_finite x && is_finite y then Raise OverflowError else Ok r
  else Ok r.

Definition cos (x : float) : result float := math_1 (libm_cos m) x.
Definition sin (x : float) : result float := math_1 (libm_sin m) x.

Definition atan2 (y x : float) : result float :=
  math_2_check y x (libm_atan2 m y x).

(** [math.hypot] as CPython has it up to version 3.7: an infinite argument
    gives [inf] before the C function is consulted, even when the other
    argument is a NaN, and an infinite result on finite arguments raises
    [OverflowError].  From version 3.8 on [math.hypot] computes the norm
    itself and returns [inf] in that last case instead of raising; with
    [libm_hypot] read as that computation the two differ in this case
    only. *)
Definition hypot (x y : float) : result float :=
  if is_inf x then Ok (fabs x)
  else if is_inf y then Ok (fabs y)
  else math_2_check x y (libm_hypot m x y).

(** [iv ** .5] on a float [iv], after CPython's [float_pow]: the special
    values are settled by the interpreter, the rest by C's [pow], whose
    infinite result is an [OverflowError].
    - A negative finite base has a complex square root, and Python 3
      returns a [complex] there.  The model has no complex numbers and
      marks the case by [Raise TypeError], to be read as "not a float"; no
      caller in this module reaches it, the sum of squares that is raised to
      [.5] being never negative (lemma [magnitude_square_not_negative]).
    - [float_pow] also turns an [errno] that [pow] leaves into an exception
      ([EDOM] into [ValueError], [ERANGE] into [OverflowError]).  [libm_pow]
      is a function of its arguments alone: the one call made here has a
      positive finite base and the exponent [.5], where the square root is
      in the domain and in range, and the infinite result is the only error
      that is modelled. *)
Definition pow_half (iv : float) : result float :=
  if is_nan iv then Ok iv
  else if is_inf iv then Ok (fabs iv)
  else if is_zero iv then Ok zero
  else if (iv < zero)%pf then Raise TypeError
  else if (iv == lit 1)%pf then Ok (lit 1)
  else
    let ix := libm_pow m iv (lit 0.5) in
    if is_inf ix then Raise OverflowError else Ok ix.

End WithLibm.
End Math.

(** What the C standard fixes of [hypot] and every C library obeys: a NaN
    argument with no infinite one gives NaN (Annex F), and the result is
    computed without undue overflow, so it is finite on arguments of
    magnitude at most [1e300]. *)
Record conforming (m : Libm) : Prop := {
  hypot_nan : forall x y,
    is_nan x || is_nan y = true -> is_inf x || is_inf y = false ->
    libm_hypot m x y = nan;
  hypot_no_undue_overflow : forall x y,
    (fabs x <= lit 1e300)%pf = true -> (fabs y <= lit 1e300)%pf = true ->
    is_finite (libm_hypot m x y) = true
}.

Module VectorGeom.
Section WithLibm.

Variable m : Libm.

(** [Vector.magnitude] *)
Definition magnitude (self : Vector) : result float :=
  Math.pow_half m (magnitude_square self).

(** [Vector.magnitude_xy] *)
Definition magnitude_xy (self : Vector) : result float :=
  Math.hypot m (_x self) (_y self).

(** [Vector.angle_rad] *)
Definition angle_rad (self : Vector) : result float :=
  Math.atan2 m (_y self) (_x self).

(** [Vector.from_rad_angle] *)
Definition from_rad_angle (angle length : float) : result Vector :=
  c <- Math.cos m angle ;;
  s <- Math.sin m angle ;;
  Ok (new (c * length) (s * length) zero)%pf.

(** [Vector.rot_z_rad] *)
Definition rot_z_rad (self : Vector) (angle : float) : result Vector :=
  let v := new (_x self) (_y self) zero in
  a <- angle_rad v ;;
  len <- magnitude v ;;
  v <- from_rad_angle (a + angle)%pf len ;;
  Ok (new (_x v) (_y v) (_z self)).

End WithLibm.
End VectorGeom.

Import VectorGeom.

(** ** The rest of the class

    The operations below complete the class: the ones that divide add
    [ZeroDivisionError] to the ways of failing, so their outcome type is
    [result] with one more case. *)

Inductive outcome (A : Type) : Type :=
| Returns (a : A)
| Raises (e : exn)
| RaisesZeroDivisionError.

Arguments Returns {A} a.
Arguments Raises {A} e.
Arguments RaisesZeroDivisionError {A}.

Definition lift {A : Type} (r : result A) : outcome A :=
  match r with
  | Ok a => Returns a
  | Raise e => Raises e
  end.

Definition bind_outcome {A B : Type} (r : outcome A) (k : A -> outcome B) : outcome B :=
  match r with
  | Returns a => k a
  | Raises e => Raises e
  | RaisesZeroDivisionError => RaisesZeroDivisionError
  end.

Notation "x <~ r ;; k" := (bind_outcome r (fun x => k))
  (at level 61, r at next level, right associativity).

(** The float operator [a / b]: a zero divisor raises, of either sign. *)
Definition py_truediv (a b : float) : outcome float :=
  if is_zero b then RaisesZeroDivisionError else Returns (SFdiv prec emax a b).

Definition tolerances_must_be_non_negative : string :=
  "tolerances must be non-negative".

Module VectorRest.

(** [Vector.replace]; an argument left out is [None]. *)
Definition replace (self : Vector) (x y z : pyval) : result Vector :=
  let x := match x with PyNone => PyFloat (_x self) | _ => x end in
  let y := match y with PyNone => PyFloat (_y self) | _ => y end in
  let z := match z with PyNone => PyFloat (_z self) | _ => z end in
  __init__ [x; y; z].

(** The generator of [Vector.generate], consumed to its end: the vectors of
    the items in order, up to the first item the constructor rejects. *)
Fixpoint generate_items (items : list pyval) : result (list Vector) :=
  match items with
  | [] => Ok []
  | item :: rest =>
      v <- __init__ [item] ;;
      vs <- generate_items rest ;;
      Ok (v :: vs)
  end.

(** [Vector.list], that is [list(cls.generate(items))]; iterating over a
    Vector yields its three floats, a non-iterable is a [TypeError]. *)
Definition list (items : pyval) : result (list Vector) :=
  match items with
  | PySeq l => generate_items l
  | PyVector v => generate_items [PyFloat (_x v); PyFloat (_y v); PyFloat (_z v)]
  | _ => Raise TypeError
  end.

(** [Vector.is_null] *)
Definition is_null (self : Vector) : result bool :=
  __eq__ self (PySeq [PyInt 0; PyInt 0; PyInt 0]).

(** [Vector.__bool__] *)
Definition __bool__ (self : Vector) : result bool :=
  b <- is_null self ;; Ok (negb b).

(** [Vector.isclose]; [math.isclose] rejects a negative tolerance before it
    compares. *)
Definition isclose_method (self : Vector) (other : pyval) (abs_tol : float) : result bool :=
  other <- __init__ [other] ;;
  if (abs_tol < zero)%pf then Raise (ValueError tolerances_must_be_non_negative)
  else
    Ok (math_isclose (_x self) (_x other) default_rel_tol abs_tol
        && math_isclose (_y self) (_y other) default_rel_tol abs_tol
        && math_isclose (_z self) (_z other) default_rel_tol abs_tol).

(** The default [abs_tol] of [Vector.isclose] *)
Definition isclose_default_abs_tol : float := lit 1e-12.

(** [Vector.__truediv__], also [__div__] *)
Definition __truediv__ (self : Vector) (other : pyval) : outcome Vector :=
  scalar <~ lift (py_float other) ;;
  x <~ py_truediv (_x self) scalar ;;
  y <~ py_truediv (_y self) scalar ;;
  z <~ py_truediv (_z self) scalar ;;
  Returns (new x y z).

(** [Vector.__rtruediv__], also [__rdiv__] *)
Definition __rtruediv__ (self : Vector) (other : pyval) : outcome Vector :=
  scalar <~ lift (py_float other) ;;
  x <~ py_truediv scalar (_x self) ;;
  y <~ py_truediv scalar (_y self) ;;
  z <~ py_truediv scalar (_z self) ;;
  Returns (new x y z).

(** [Vector.dot] *)
Definition dot (self : Vector) (other : pyval) : result float :=
  '(x, y, z) <- decompose [other] ;;
  Ok (_x self * x + _y self * y + _z self * z)%pf.

(** [Vector.cross] *)
Definition cross (self : Vector) (other : pyval) : result Vector :=
  '(x, y, z) <- decompose [other] ;;
  Ok (new (_y self * z - _z self * y)
          (_z self * x - _x self * z)
          (_x self * y - _y self * x))%pf.

Section WithLibm.

Variable m : Libm.

(** [Vector.normalize] with a float [length] *)
Definition normalize (self : Vector) (length : float) : outcome Vector :=
  mag <~ lift (magnitude m self) ;;
  f <~ py_truediv length mag ;;
  lift (__mul__ self (PyFloat f)).

(** [Vector.project] *)
Definition project (self : Vector) (other : pyval) : outcome Vector :=
  uv <~ normalize self (lit 1) ;;
  d <~ lift (dot uv other) ;;
  lift (__mul__ uv (PyFloat d)).

(** [Vector.distance] *)
Definition distance (self : Vector) (other : pyval) : result float :=
  v <- __init__ [other] ;;
  d <- __sub__ v (PyVector self) ;;
  magnitude m d.

(** The module's function [distance(p1, p2)] *)
Definition distance_fn (p1 p2 : pyval) : result float :=
  v <- __init__ [p1] ;;
  distance v p2.

End WithLibm.

End VectorRest.

(** The module's constant [NULLVEC = Vector(0, 0, 0)] *)
Definition NULLVEC : Vector := mkVector (of_Z 0) (of_Z 0) (of_Z 0).

(** ** Vocabulary of the statements *)

(** [v.xyz] as the Python tuple it is. *)
Definition py_tuple3 (t : Triple) : pyval :=
  let '(a, b, c) := t in PySeq [PyFloat a; PyFloat b; PyFloat c].

(** A vector with integral components, for the examples. *)
Definition vec_of_Z (a b c : Z) : Vector := mkVector (of_Z a) (of_Z b) (of_Z c).

(** The lexicographic order on triples, with the exact comparisons of
    floats for both the equality and the less-than tests. *)
Definition lex_lt (a b : Triple) : bool :=
  let '(a1, a2, a3) := a in
  let '(b1, b2, b3) := b in
  (a1 < b1)%pf
  || ((a1 == b1)%pf && ((a2 < b2)%pf || ((a2 == b2)%pf && (a3 < b3)%pf))).

(** Python values that are not iterable. *)
Definition non_iterable (v : pyval) : bool :=
  match v with
  | PyNone | PyInt _ | PyFloat _ => true
  | PySeq _ | PyVector _ => false
  end.

(** Some component is a NaN. *)
Definition has_nan (v : Vector) : bool :=
  is_nan (_x v) || is_nan (_y v) || is_nan (_z v).


(** Two floats are within the tolerances of the module's [isclose]:
    equal, or both not infinite and apart by at most [1e-9] times the
    larger magnitude or by at most [1e-14]. *)
Definition within_tolerance (a b : float) : Prop :=
  (a == b)%pf = true
  \/ (is_inf a = false /\ is_inf b = false
      /\ ((fabs (b - a) <= fabs (default_rel_tol * b))%pf = true
          \/ (fabs (b - a) <= fabs (default_rel_tol * a))%pf = true
          \/ (fabs (b - a) <= lit 1e-14)%pf = true)).

(** The sign of a float is [s], or the float is a NaN. *)
Definition sign_or_nan (s : bool) (f : float) : Prop :=
  match f with
  | S754_nan => True
  | S754_zero s' | S754_infinity s' | S754_finite s' _ _ => s' = s
  end.

(** The float [1e200], whose square overflows. *)
Definition big : float := lit 1e200.

(** A C library stub: constant functions that agree with the real ones at
    the arguments [0] and [1], and a [hypot] that is [conforming]. *)
Definition stub_libm : Libm :=
  mkLibm (fun _ => lit 1) (fun _ => zero) (fun _ _ => zero)
         (fun x y => if is_nan x || is_nan y then nan else zero)
         (fun x _ => x).

(** Two floats are the same value: the same float, or both a NaN (whose
    sign and payload are not part of the model). *)
Definition same_value (f g : float) : Prop :=
  (is_nan f = false /\ f = g) \/ (is_nan f = true /\ is_nan g = true).



(** The float nearest to k * 2^s (ties to even); [scaled 0 k] is [of_Z k]. *)
Definition scaled (s k : Z) : float := binary_normalize prec emax k s false.


(** * Properties *)

(** ** Floats *)

Lemma binary_round_aux_sign (s : bool) (mx ex : Z) (l : location) :
  sign_or_nan s (binary_round_aux prec emax s mx ex l).
Proof.
  unfold binary_round_aux.
  destruct (shr_fexp prec emax mx ex l) as [mrs' e'].
  destruct (shr_fexp prec emax _ e' loc_Exact) as [mrs'' e''].
  destruct (shr_m mrs''); simpl; auto.
  destruct (_ <=? _); simpl; auto.
Qed.

Lemma compare_refl_finite (s : bool) (mx : positive) (ex : Z) :
  SFcompare (S754_finite s mx ex) (S754_finite s mx ex) = Some Eq.
Proof.
  simpl. rewrite Z.compare_refl.
  assert (H : Pos.compare_cont Eq mx mx = Eq) by apply Pos.compare_cont_refl.
  rewrite H. destruct s; reflexivity.
Qed.

Lemma eqb_refl (f : float) : is_nan f = false -> (f == f)%pf = true.
Proof.
  unfold eqb, SFeqb. destruct f as [s | s | | s mx ex]; intros H.
  - reflexivity.
  - destruct s; reflexivity.
  - discriminate H.
  - now rewrite compare_refl_finite.
Qed.

Lemma eqb_not_ltb (a b : float) : (a == b)%pf = true -> (a < b)%pf = false.
Proof.
  unfold eqb, ltb, SFeqb, SFltb.
  destruct (SFcompare a b) as [[ | | ] | ]; intros H; try discriminate H; reflexivity.
Qed.

Lemma add_comm (a b : float) : (a + b)%pf = (b + a)%pf.
Proof.
  unfold add, SFadd.
  destruct a as [sa | sa | | sa ma ea], b as [sb | sb | | sb mb eb];
    try reflexivity; try (destruct sa, sb; reflexivity).
  rewrite (Z.min_comm eb ea).
  now rewrite Z.add_comm.
Qed.

Lemma lit_neg_one : lit (-1) = S754_finite true 4503599627370496 (-52).
Proof. vm_compute. reflexivity. Qed.

(** A float that equals its own product with [-1.0] is a zero. *)
Lemma eqb_mul_neg_one (z : float) :
  (z == z * lit (-1))%pf = true -> is_zero z = true.
Proof.
  rewrite lit_neg_one. destruct z as [s | s | | s mz ez]; intros H.
  - reflexivity.
  - destruct s; discriminate H.
  - discriminate H.
  - exfalso. revert H. unfold mul, SFmul.
    generalize (binary_round_aux_sign (xorb s true)
                  (Zpos (mz * 4503599627370496)) (ez + -52) loc_Exact).
    destruct (binary_round_aux _ _ _ _ _ _) as [s' | s' | | s' m' e'];
      simpl; intros Hs; try (rewrite Hs); destruct s; simpl; discriminate.
Qed.

(** ** Construction and decomposition *)

(** The constructor on three floats is the record constructor. *)
Lemma init_three_floats (a b c : float) :
  __init__ [PyFloat a; PyFloat b; PyFloat c] = Ok (new a b c).
Proof. reflexivity. Qed.

Lemma decompose_vector (v : Vector) : decompose [PyVector v] = Ok (xyz v).
Proof. reflexivity. Qed.

(** C2, as stated, fails: a sequence of four numbers is not rejected, its
    first three items are the components. *)
Lemma decompose_four_items_accepted :
  decompose [PySeq [PyInt 1; PyInt 2; PyInt 3; PyInt 4]]
    = Ok (of_Z 1, of_Z 2, of_Z 3)
  /\ is_ValueError (decompose [PySeq [PyInt 1; PyInt 2; PyInt 3; PyInt 4]]) = false.
Proof. split; vm_compute; reflexivity. Qed.

(** C2, amended: for one argument that is not a Vector, a sequence of two
    numbers that [float] accepts resolves to (x, y, 0.0); a sequence of three
    or more resolves to its first three items (x, y, z), the items after the
    third being ignored; a sequence of fewer than two items and every
    non-iterable argument raise [ValueError]. *)
Theorem decompose_one_argument :
  (forall x y fx fy,
      py_float x = Ok fx -> py_float y = Ok fy ->
      decompose [PySeq [x; y]] = Ok (fx, fy, zero))
  /\ (forall x y z rest fx fy fz,
      py_float x = Ok fx -> py_float y = Ok fy -> py_float z = Ok fz ->
      decompose [PySeq (x :: y :: z :: rest)] = Ok (fx, fy, fz))
  /\ (forall items,
      (List.length items < 2)%nat ->
      decompose [PySeq items] = Raise (ValueError not_enough_values))
  /\ (forall data,
      non_iterable data = true ->
      decompose [data] = Raise (ValueError invalid_arguments)).
Proof.
  repeat split.
  - intros x y fx fy Hx Hy. simpl. now rewrite Hx, Hy.
  - intros x y z rest fx fy fz Hx Hy Hz. simpl. now rewrite Hx, Hy, Hz.
  - intros [ | x [ | y items]] H; simpl in *; try reflexivity; lia.
  - intros [ | n | f | items | v] H; try discriminate H; reflexivity.
Qed.

Lemma decompose_one_argument_witness :
  decompose [PySeq [PyInt 1; PyFloat (lit 2.5)]] = Ok (of_Z 1, lit 2.5, zero)
  /\ decompose [PySeq [PyInt 1; PyInt 2; PyInt 3; PyInt 4; PyInt 5]]
     = Ok (of_Z 1, of_Z 2, of_Z 3)
  /\ decompose [PySeq [PyInt 1]] = Raise (ValueError not_enough_values)
  /\ decompose [PyInt 5] = Raise (ValueError invalid_arguments).
Proof.
  destruct decompose_one_argument as (H2 & H3 & Hshort & Hscalar).
  split; [ | split; [ | split ]].
  - apply H2; reflexivity.
  - apply H3; reflexivity.
  - apply Hshort. simpl. lia.
  - apply Hscalar. reflexivity.
Defined.

(** ** Element access *)

(** C4, as stated, fails: the index -1 is not an error, it is the z
    component. *)
Lemma getitem_minus_one :
  __getitem__ (vec_of_Z 1 2 3) (-1) = Ok (of_Z 3).
Proof. reflexivity. Qed.

(** C4, amended: the indices 0, 1, 2 give x, y, z; the negative indices
    -3, -2, -1 give x, y, z as well (they count from the end of the
    triple); every other integer index raises [IndexError]. *)
Theorem getitem_index (self : Vector) (index : Z) :
  (index = 0 \/ index = -3 -> __getitem__ self index = Ok (_x self))
  /\ (index = 1 \/ index = -2 -> __getitem__ self index = Ok (_y self))
  /\ (index = 2 \/ index = -1 -> __getitem__ self index = Ok (_z self))
  /\ (index < -3 \/ 2 < index -> __getitem__ self index = Raise IndexError).
Proof.
  unfold __getitem__, tuple3_getitem, xyz.
  repeat split; intros H.
  - destruct H as [-> | ->]; reflexivity.
  - destruct H as [-> | ->]; reflexivity.
  - destruct H as [-> | ->]; reflexivity.
  - destruct (Z.ltb_spec index 0) as [Hn | Hn].
    + destruct (Z.eqb_spec (index + 3) 0); [lia | ].
      destruct (Z.eqb_spec (index + 3) 1); [lia | ].
      destruct (Z.eqb_spec (index + 3) 2); [lia | reflexivity].
    + destruct (Z.eqb_spec index 0); [lia | ].
      destruct (Z.eqb_spec index 1); [lia | ].
      destruct (Z.eqb_spec index 2); [lia | reflexivity].
Qed.

Lemma getitem_index_witness :
  __getitem__ (vec_of_Z 1 2 3) 0 = Ok (of_Z 1)
  /\ __getitem__ (vec_of_Z 1 2 3) (-2) = Ok (of_Z 2)
  /\ __getitem__ (vec_of_Z 1 2 3) 2 = Ok (of_Z 3)
  /\ __getitem__ (vec_of_Z 1 2 3) 3 = Raise IndexError
  /\ __getitem__ (vec_of_Z 1 2 3) (-4) = Raise IndexError.
Proof.
  split; [ | split; [ | split; [ | split ]]].
  - apply (getitem_index (vec_of_Z 1 2 3) 0). left. reflexivity.
  - apply (getitem_index (vec_of_Z 1 2 3) (-2)). right. reflexivity.
  - apply (getitem_index (vec_of_Z 1 2 3) 2). left. reflexivity.
  - apply (getitem_index (vec_of_Z 1 2 3) 3). right. lia.
  - apply (getitem_index (vec_of_Z 1 2 3) (-4)). left. lia.
Defined.

(** ** Right-hand subtraction *)

(** The scalar branch of [__rsub__] on any scalar [float] accepts: the x
    and z components are [s - x] and [s - z], the y component is
    [(s - y) - s]. *)
Lemma rsub_scalar (self : Vector) (other : pyval) (s : float) :
  is_scalar other = true -> py_float other = Ok s ->
  __rsub__ self other
  = Ok (mkVector (s - _x self) (s - _y self - s) (s - _z self))%pf.
Proof. intros Hs Hf. unfold __rsub__. now rewrite Hs, Hf. Qed.

(** The vector branch of [__rsub__] is component-wise [other - self]. *)
Lemma rsub_vector (self other : Vector) :
  __rsub__ self (PyVector other)
  = Ok (mkVector (_x other - _x self) (_y other - _y self) (_z other - _z self))%pf.
Proof. reflexivity. Qed.

(** C1: the claim asks (s - v.x, s - v.y, s - v.z) of [s - v]; the code's
    y component is [s - v.y - s].  At v = (1, 2, 3) and s = 10 the code
    returns (9, -2, 7), not (9, 8, 7). *)
Theorem rsub_scalar_y_slip :
  __rsub__ (vec_of_Z 1 2 3) (PyInt 10) = Ok (vec_of_Z 9 (-2) 7)
  /\ (mkVector (of_Z 10 - of_Z 1) (of_Z 10 - of_Z 2) (of_Z 10 - of_Z 3))%pf
     = vec_of_Z 9 8 7
  /\ vec_of_Z 9 (-2) 7 <> vec_of_Z 9 8 7.
Proof.
  split; [ | split ].
  - vm_compute. reflexivity.
  - vm_compute. reflexivity.
  - vm_compute. discriminate.
Qed.

(** ** Ordering *)

(** C6: on a decomposable operand, [<] is the lexicographic order of the
    component triples, with exact float comparisons and no tolerance. *)
Theorem lt_is_lexicographic (self : Vector) (other : pyval) (t : Triple) :
  decompose [other] = Ok t ->
  __lt__ self other = Ok (lex_lt (xyz self) t).
Proof.
  intros H. unfold __lt__. rewrite H. destruct t as [[x y] z].
  unfold lex_lt, xyz. simpl. f_equal.
  destruct (_x self == x)%pf eqn:Ex.
  - rewrite (eqb_not_ltb _ _ Ex). simpl.
    destruct (_y self == y)%pf eqn:Ey.
    + now rewrite (eqb_not_ltb _ _ Ey).
    + simpl. now rewrite orb_false_r.
  - simpl. now rewrite orb_false_r.
Qed.

Lemma lt_is_lexicographic_witness :
  __lt__ (vec_of_Z 1 1 1) (PySeq [PyInt 1; PyInt 1; PyInt 2])
  = Ok (lex_lt (xyz (vec_of_Z 1 1 1)) (of_Z 1, of_Z 1, of_Z 2)).
Proof.
  apply (lt_is_lexicographic (vec_of_Z 1 1 1) (PySeq [PyInt 1; PyInt 1; PyInt 2])).
  reflexivity.
Defined.

(** The three orderings the specification lists. *)
Example lt_examples :
  __lt__ (vec_of_Z 1 0 0) (PyVector (vec_of_Z 2 0 0)) = Ok true
  /\ __lt__ (vec_of_Z 1 1 0) (PyVector (vec_of_Z 1 2 0)) = Ok true
  /\ __lt__ (vec_of_Z 1 1 1) (PyVector (vec_of_Z 1 1 2)) = Ok true.
Proof. repeat split; vm_compute; reflexivity. Qed.

(** ** Orthogonal *)

Lemma reversed_components (self : Vector) :
  reversed self
  = Ok (mkVector (_x self * lit (-1)) (_y self * lit (-1)) (_z self * lit (-1)))%pf.
Proof. reflexivity. Qed.

(** C10: [orthogonal] applied twice with the same flag gives exactly
    (-x, -y, z); its z component is that of v, and this equals the z
    component of [-v] (as floats compare) only when v.z is a zero. *)
Theorem orthogonal_twice (self : Vector) (ccw : bool) :
  orthogonal (orthogonal self ccw) ccw
  = mkVector (- _x self)%pf (- _y self)%pf (_z self)
  /\ (forall r, reversed self = Ok r ->
      (_z (orthogonal (orthogonal self ccw) ccw) == _z r)%pf = true ->
      is_zero (_z self) = true).
Proof.
  split.
  - destruct ccw; reflexivity.
  - intros r Hr. rewrite reversed_components in Hr.
    injection Hr as <-. destruct ccw; simpl; apply eqb_mul_neg_one.
Qed.

Lemma orthogonal_twice_witness :
  is_zero (_z (vec_of_Z 1 2 0)) = true.
Proof.
  apply (proj2 (orthogonal_twice (vec_of_Z 1 2 0) true)
           (mkVector (of_Z 1 * lit (-1)) (of_Z 2 * lit (-1)) (of_Z 0 * lit (-1)))%pf).
  - reflexivity.
  - vm_compute. reflexivity.
Defined.

(** ** Structural equality *)

Lemma isclose_spec (a b : float) :
  isclose a b = true <-> within_tolerance a b.
Proof.
  unfold isclose, math_isclose, within_tolerance. split.
  - intros H. destruct (a == b)%pf; [now left | right].
    destruct (is_inf a); [discriminate H | ].
    destruct (is_inf b); [discriminate H | ].
    simpl in H. split; [reflexivity | split; [reflexivity | ]].
    apply orb_true_iff in H as [H | H]; [ | right; right; exact H].
    apply orb_true_iff in H as [H | H]; [left | right; left]; exact H.
  - intros [H | (Ha & Hb & H)]; [now rewrite H | ].
    destruct (a == b)%pf; [reflexivity | ]. rewrite Ha, Hb. simpl.
    destruct H as [H | [H | H]]; rewrite H; rewrite ?orb_true_r; reflexivity.
Qed.

Lemma isclose_refl (a : float) : isclose a a = negb (is_nan a).
Proof.
  destruct (is_nan a) eqn:Ha.
  - destruct a; try discriminate Ha. vm_compute. reflexivity.
  - unfold isclose, math_isclose. now rewrite (eqb_refl a Ha).
Qed.

Lemma eq_self (v : Vector) : __eq__ v (PyVector v) = Ok (negb (has_nan v)).
Proof.
  unfold __eq__, has_nan. simpl. rewrite !isclose_refl.
  destruct (is_nan (_x v)), (is_nan (_y v)), (is_nan (_z v)); reflexivity.
Qed.

(** C3, as stated, fails: two vectors whose x components differ by 1, far
    more than 1e-14, compare equal, because the relative tolerance 1e-9 of
    [math.isclose] stays in force. *)
Lemma eq_by_relative_tolerance :
  __eq__ (vec_of_Z 1000000000000000 0 0)
         (PyVector (vec_of_Z 1000000000000001 0 0)) = Ok true
  /\ (fabs (of_Z 1000000000000001 - of_Z 1000000000000000) <= lit 1e-14)%pf
     = false.
Proof. split; vm_compute; reflexivity. Qed.

(** C3, amended: on a decomposable operand, [==] holds if and only if each
    of the three component pairs is within the tolerances of
    [math.isclose] with [rel_tol = 1e-9] (its default) and
    [abs_tol = 1e-14]: the two floats are equal, or neither is infinite and
    they differ by at most 1e-9 times the magnitude of one of them or by at
    most 1e-14. *)
Theorem eq_within_tolerance (self : Vector) (other : pyval) (x y z : float) :
  decompose [other] = Ok (x, y, z) ->
  exists b,
    __eq__ self other = Ok b
    /\ (b = true <->
        within_tolerance (_x self) x
        /\ within_tolerance (_y self) y
        /\ within_tolerance (_z self) z).
Proof.
  intros H. unfold __eq__. rewrite H. simpl. eexists. split; [reflexivity | ].
  rewrite !andb_true_iff, !isclose_spec. tauto.
Qed.

Lemma eq_within_tolerance_witness :
  exists b,
    __eq__ (vec_of_Z 1 2 3) (PySeq [PyInt 1; PyInt 2; PyInt 3]) = Ok b
    /\ (b = true <->
        within_tolerance (of_Z 1) (of_Z 1)
        /\ within_tolerance (of_Z 2) (of_Z 2)
        /\ within_tolerance (of_Z 3) (of_Z 3)).
Proof.
  apply (eq_within_tolerance (vec_of_Z 1 2 3) (PySeq [PyInt 1; PyInt 2; PyInt 3])).
  reflexivity.
Defined.

(** ** Round trip through [xyz] *)

(** C9, as stated, fails: a vector with a NaN component does not compare
    equal to the vector rebuilt from its own triple. *)
Lemma roundtrip_nan_not_equal :
  (w <- __init__ [py_tuple3 (xyz (mkVector nan zero zero))] ;;
   __eq__ w (PyVector (mkVector nan zero zero))) = Ok false.
Proof. vm_compute. reflexivity. Qed.

(** C9, amended: [Vector(v.xyz)] has exactly the components of v, and
    [Vector(v.xyz) == v] holds if and only if no component of v is a NaN. *)
Theorem roundtrip_xyz (v : Vector) :
  __init__ [py_tuple3 (xyz v)] = Ok v
  /\ (w <- __init__ [py_tuple3 (xyz v)] ;; __eq__ w (PyVector v))
     = Ok (negb (has_nan v)).
Proof.
  assert (H : __init__ [py_tuple3 (xyz v)] = Ok v) by (destruct v; reflexivity).
  split; [exact H | ]. rewrite H. simpl. apply eq_self.
Qed.

(** ** Commutativity *)

(** C8, as stated, fails: with a = (inf, 0, 0) and b = (-inf, 0, 0) the sum
    has a NaN component, and [a + b == b + a] is false. *)
Lemma add_commute_nan_not_equal :
  (l <- __add__ (mkVector inf zero zero) (PyVector (mkVector (- inf)%pf zero zero)) ;;
   r <- __add__ (mkVector (- inf)%pf zero zero) (PyVector (mkVector inf zero zero)) ;;
   __eq__ l (PyVector r)) = Ok false.
Proof. vm_compute. reflexivity. Qed.

(** C8, amended: [a + b] and [b + a] are the same vector, component for
    component, and so are [s * a] and [a * s] for every scalar [float]
    accepts; under [==] each pair compares equal if and only if the result
    has no NaN component. *)
Theorem add_mul_commute :
  (forall a b,
      __add__ a (PyVector b) = __add__ b (PyVector a)
      /\ (l <- __add__ a (PyVector b) ;;
          r <- __add__ b (PyVector a) ;;
          __eq__ l (PyVector r))
         = Ok (negb (has_nan
                 (mkVector (_x a + _x b) (_y a + _y b) (_z a + _z b))%pf)))
  /\ (forall a s f,
      py_float s = Ok f ->
      __rmul__ a s = __mul__ a s
      /\ (l <- __rmul__ a s ;;
          r <- __mul__ a s ;;
          __eq__ l (PyVector r))
         = Ok (negb (has_nan
                 (mkVector (_x a * f) (_y a * f) (_z a * f))%pf))).
Proof.
  split.
  - intros a b. unfold __add__. simpl.
    rewrite (add_comm (_x b)), (add_comm (_y b)), (add_comm (_z b)).
    split; [reflexivity | apply eq_self].
  - intros a s f Hf. unfold __rmul__, __mul__. rewrite Hf. simpl.
    split; [reflexivity | apply eq_self].
Qed.

Lemma add_mul_commute_witness :
  __rmul__ (vec_of_Z 1 2 3) (PyInt 2) = __mul__ (vec_of_Z 1 2 3) (PyInt 2)
  /\ (l <- __rmul__ (vec_of_Z 1 2 3) (PyInt 2) ;;
      r <- __mul__ (vec_of_Z 1 2 3) (PyInt 2) ;;
      __eq__ l (PyVector r))
     = Ok (negb (has_nan
             (mkVector (of_Z 1 * of_Z 2) (of_Z 2 * of_Z 2) (of_Z 3 * of_Z 2))%pf)).
Proof.
  apply (proj2 add_mul_commute (vec_of_Z 1 2 3) (PyInt 2) (of_Z 2)).
  reflexivity.
Defined.

(** ** Linear interpolation *)


(** ** Exact arithmetic on binary fixed-point numbers *)

(** [scaled] at work: the integers for s = 0, the halves for s = -1. *)
Lemma scaled_examples :
  (forall k, scaled 0 k = of_Z k)
  /\ scaled (-1) 1 = lit 0.5
  /\ scaled (-2) (-3) = lit (-0.75)
  /\ scaled 3 5 = lit 40.
Proof. repeat split. Qed.

























(** The other boundary fails as well when b - a overflows: infinity times
    zero is a NaN. *)
Example lerp_factor_zero_overflow :
  (l <- lerp (mkVector (lit 1e308) zero zero)
             (PyVector (mkVector (lit (-1e308)) zero zero)) (PyInt 0) ;;
   __eq__ l (PyVector (mkVector (lit 1e308) zero zero))) = Ok false.
Proof. vm_compute. reflexivity. Qed.



(** ** Magnitudes and rotation about the z axis *)

Lemma mul_sign (a b : float) :
  match a, b with
  | S754_nan, _ | _, S754_nan => True
  | S754_zero sa, S754_zero sb | S754_zero sa, S754_finite sb _ _
  | S754_zero sa, S754_infinity sb | S754_finite sa _ _, S754_zero sb
  | S754_finite sa _ _, S754_finite sb _ _ | S754_finite sa _ _, S754_infinity sb
  | S754_infinity sa, S754_zero sb | S754_infinity sa, S754_finite sb _ _
  | S754_infinity sa, S754_infinity sb => sign_or_nan (xorb sa sb) (a * b)%pf
  end.
Proof.
  destruct a as [sa | sa | | sa ma ea], b as [sb | sb | | sb mb eb];
    simpl; auto.
  apply binary_round_aux_sign.
Qed.

Lemma square_not_negative (a : float) : sign_or_nan false (a * a)%pf.
Proof.
  generalize (mul_sign a a).
  destruct a as [s | s | | s ma ea]; try (now rewrite xorb_nilpotent); auto.
Qed.

Lemma add_not_negative (a b : float) :
  sign_or_nan false a -> sign_or_nan false b -> sign_or_nan false (a + b)%pf.
Proof.
  destruct a as [sa | sa | | sa ma ea], b as [sb | sb | | sb mb eb];
    simpl; intros Ha Hb; subst; simpl; auto.
  unfold add, SFadd, binary_normalize, binary_round. simpl.
  destruct (shl_align _ _ _) as [mz ez].
  apply binary_round_aux_sign.
Qed.

(** The sum of squares is never below zero, so [pow_half] never meets a
    negative base under [magnitude]. *)
Lemma magnitude_square_not_negative (v : Vector) :
  (magnitude_square v < zero)%pf = false.
Proof.
  assert (H : sign_or_nan false (magnitude_square v)).
  { unfold magnitude_square.
    repeat apply add_not_negative; apply square_not_negative. }
  destruct (magnitude_square v) as [s | s | | s ms es]; simpl in H; subst;
    reflexivity.
Qed.






(** The conformance assumption is satisfiable. *)
Lemma stub_libm_conforming : conforming stub_libm.
Proof.
  split; simpl.
  - intros x y H _. now rewrite H.
  - intros x y Hx Hy.
    destruct x; try discriminate Hx; destruct y; try discriminate Hy; reflexivity.
Qed.

(** [magnitude] returns a float or raises [OverflowError]. *)
Lemma magnitude_outcome (m : Libm) (v : Vector) :
  (exists f, magnitude m v = Ok f) \/ magnitude m v = Raise OverflowError.
Proof.
  unfold magnitude, Math.pow_half.
  rewrite magnitude_square_not_negative.
  destruct (is_nan _); [eauto | ].
  destruct (is_inf _); [eauto | ].
  destruct (is_zero _); [eauto | ].
  destruct (_ == _)%pf; [eauto | ].
  destruct (is_inf _); eauto.
Qed.







(** [rot_z_rad] returns when its four calls into [math] return. *)
Lemma rot_z_rad_returns (m : Libm) (self : Vector) (angle a len c s : float) :
  angle_rad m (new (_x self) (_y self) zero) = Ok a ->
  magnitude m (new (_x self) (_y self) zero) = Ok len ->
  Math.cos m (a + angle)%pf = Ok c ->
  Math.sin m (a + angle)%pf = Ok s ->
  rot_z_rad m self angle = Ok (mkVector (c * len) (s * len) (_z self))%pf.
Proof.
  intros Ha Hlen Hc Hs. unfold rot_z_rad, from_rad_angle.
  rewrite Ha. simpl. rewrite Hlen. simpl. rewrite Hc. simpl. rewrite Hs.
  reflexivity.
Qed.

(** On ordinary inputs the xy-magnitude is not kept exactly either: with
    the values that glibc returns on x86-64 for [atan2], [pow], [cos],
    [sin] and [hypot] at the arguments met, (1, 3, 5) rotated by the angle 1
    has the xy-magnitude 3.162277660168379, one unit in the last place
    below that of (1, 3, 5), which is 3.1622776601683795. *)
Lemma rot_z_rad_rounds (m : Libm) :
  libm_atan2 m (lit 3) (lit 1) = lit 1.2490457723982544 ->
  libm_pow m (lit 10) (lit 0.5) = lit 3.1622776601683795 ->
  libm_cos m (lit 2.2490457723982544) = lit (-0.6274308779229409) ->
  libm_sin m (lit 2.2490457723982544) = lit 0.7786722631690739 ->
  libm_hypot m (lit (-1.9841106485555497)) (lit 2.4623779024123156)
    = lit 3.162277660168379 ->
  libm_hypot m (lit 1) (lit 3) = lit 3.1622776601683795 ->
  rot_z_rad m (mkVector (lit 1) (lit 3) (lit 5)) (lit 1)
    = Ok (mkVector (lit (-1.9841106485555497)) (lit 2.4623779024123156) (lit 5))
  /\ magnitude_xy m (mkVector (lit (-1.9841106485555497)) (lit 2.4623779024123156) (lit 5))
     = Ok (lit 3.162277660168379)
  /\ magnitude_xy m (mkVector (lit 1) (lit 3) (lit 5)) = Ok (lit 3.1622776601683795)
  /\ (lit 3.162277660168379 == lit 3.1622776601683795)%pf = false.
Proof.
  intros H1 H2 H3 H4 H5 H6.
  assert (Ea : angle_rad m (new (lit 1) (lit 3) zero) = Ok (lit 1.2490457723982544)).
  { unfold angle_rad, Math.atan2, new. cbn [_x _y]. rewrite H1. reflexivity. }
  assert (El : magnitude m (new (lit 1) (lit 3) zero) = Ok (lit 3.1622776601683795)).
  { unfold magnitude.
    replace (magnitude_square (new (lit 1) (lit 3) zero)) with (lit 10)
      by (vm_compute; reflexivity).
    change (Math.pow_half m (lit 10))
      with (let ix := libm_pow m (lit 10) (lit 0.5) in
            if is_inf ix then Raise OverflowError else Ok ix).
    cbv zeta. rewrite H2. reflexivity. }
  assert (Et : (lit 1.2490457723982544 + lit 1)%pf = lit 2.2490457723982544)
    by (vm_compute; reflexivity).
  assert (Ec : Math.cos m (lit 1.2490457723982544 + lit 1)%pf
               = Ok (lit (-0.6274308779229409))).
  { unfold Math.cos, Math.math_1. rewrite Et. cbv zeta. rewrite H3. reflexivity. }
  assert (Es : Math.sin m (lit 1.2490457723982544 + lit 1)%pf
               = Ok (lit 0.7786722631690739)).
  { unfold Math.sin, Math.math_1. rewrite Et. cbv zeta. rewrite H4. reflexivity. }
  split; [ | split; [ | split]].
  - rewrite (rot_z_rad_returns m (mkVector (lit 1) (lit 3) (lit 5)) (lit 1)
               _ _ _ _ Ea El Ec Es).
    vm_compute. reflexivity.
  - unfold magnitude_xy, Math.hypot. cbn [_x _y].
    change (is_inf (lit (-1.9841106485555497))) with false.
    change (is_inf (lit 2.4623779024123156)) with false.
    cbv iota. rewrite H5. reflexivity.
  - unfold magnitude_xy, Math.hypot. cbn [_x _y].
    change (is_inf (lit 1)) with false. change (is_inf (lit 3)) with false.
    cbv iota. rewrite H6. reflexivity.
  - vm_compute. reflexivity.
Qed.



(** ** More on floats *)

Lemma binary_round_aux_opp (s : bool) (mx ex : Z) (l : location) :
  binary_round_aux prec emax (negb s) mx ex l
  = SFopp (binary_round_aux prec emax s mx ex l).
Proof.
  unfold binary_round_aux.
  destruct (shr_fexp prec emax mx ex l) as [mrs' e'].
  destruct (shr_fexp prec emax _ e' loc_Exact) as [mrs'' e''].
  destruct (shr_m mrs''); simpl; auto.
  destruct (_ <=? _); reflexivity.
Qed.

Lemma opp_involutive (a : float) : (- - a)%pf = a.
Proof. destruct a; simpl; now rewrite ?negb_involutive. Qed.

Lemma binary_normalize_opp (n e : Z) :
  n <> 0 ->
  binary_normalize prec emax (- n) e false
  = SFopp (binary_normalize prec emax n e false).
Proof.
  intros Hn. destruct n as [ | p | p]; [congruence | | ];
    unfold binary_normalize, binary_round; simpl;
    destruct (shl_align _ _ _) as [mz ez].
  - apply (binary_round_aux_opp false).
  - rewrite (binary_round_aux_opp false). simpl.
    symmetry. apply opp_involutive.
Qed.

Lemma mul_comm (a b : float) : (a * b)%pf = (b * a)%pf.
Proof.
  destruct a as [sa | sa | | sa ma ea], b as [sb | sb | | sb mb eb];
    simpl; try reflexivity; try (now rewrite xorb_comm).
  unfold mul, SFmul.
  now rewrite xorb_comm, Pos.mul_comm, Z.add_comm.
Qed.

Lemma compare_swap (a b : float) :
  SFcompare b a
  = match SFcompare a b with Some c => Some (CompOpp c) | None => None end.
Proof.
  destruct a as [sa | sa | | sa ma ea], b as [sb | sb | | sb mb eb];
    simpl; try reflexivity; try (destruct sa; reflexivity);
    try (destruct sb; reflexivity); try (destruct sa, sb; reflexivity).
  rewrite (Z.compare_antisym ea eb).
  assert (H : Pos.compare_cont Eq mb ma = CompOpp (Pos.compare_cont Eq ma mb))
    by (rewrite Pos.compare_cont_antisym; reflexivity).
  rewrite H.
  destruct sa, sb; simpl; try reflexivity;
    destruct (ea ?= eb); simpl; try reflexivity;
    destruct (Pos.compare_cont Eq ma mb); reflexivity.
Qed.

Lemma eqb_sym (a b : float) : (a == b)%pf = (b == a)%pf.
Proof.
  unfold eqb, SFeqb. rewrite (compare_swap a b).
  destruct (SFcompare a b) as [[ | | ] | ]; reflexivity.
Qed.

Lemma ltb_asym (a b : float) : (a < b)%pf = true -> (b < a)%pf = false.
Proof.
  unfold ltb, SFltb. rewrite (compare_swap a b).
  destruct (SFcompare a b) as [[ | | ] | ]; simpl; congruence.
Qed.

Lemma sub_swap (p q : float) :
  (q - p)%pf = (- (p - q))%pf \/ (q - p)%pf = (p - q)%pf.
Proof.
  destruct p as [sp | sp | | sp mp ep], q as [sq | sq | | sq mq eq];
    simpl; auto; try (destruct sp, sq; simpl; auto; fail).
  unfold sub, SFsub. rewrite (Z.min_comm eq ep).
  set (A := cond_Zopp sp _). set (B := cond_Zopp sq _).
  destruct (Z.eq_dec (A - B) 0) as [E | E].
  - right. replace (B - A) with 0 by lia. now rewrite E.
  - left. replace (B - A) with (- (A - B)) by lia.
    now apply binary_normalize_opp.
Qed.

Lemma fabs_opp (a : float) : fabs (- a)%pf = fabs a.
Proof. destruct a; reflexivity. Qed.

Lemma mul_opp_opp (a : float) : (- a * - a)%pf = (a * a)%pf.
Proof.
  destruct a as [s | s | | s ma ea]; simpl; try reflexivity;
    try (destruct s; reflexivity).
Qed.

Lemma mul_opp_r (a b : float) : (a * - b)%pf = (- (a * b))%pf.
Proof.
  destruct a as [sa | sa | | sa ma ea], b as [sb | sb | | sb mb eb];
    simpl; try reflexivity; try (destruct sa, sb; reflexivity).
  unfold mul, SFmul.
  replace (xorb sa (negb sb)) with (negb (xorb sa sb)) by (destruct sa, sb; reflexivity).
  apply binary_round_aux_opp.
Qed.

Lemma shl_align_same (mx : positive) (ex : Z) :
  shl_align mx ex ex = (mx, ex).
Proof. unfold shl_align. now rewrite Z.sub_diag. Qed.

Lemma sub_self (p : float) : is_finite p = true -> (p - p)%pf = zero.
Proof.
  destruct p as [s | s | | s mp ep]; try discriminate; intros _.
  - destruct s; reflexivity.
  - unfold sub, SFsub. rewrite Z.min_id, shl_align_same. simpl.
    now rewrite Z.sub_diag.
Qed.

Lemma add_opp_self (p : float) :
  is_finite p = true -> (- p + p)%pf = zero /\ (p + - p)%pf = zero.
Proof.
  destruct p as [s | s | | s mp ep]; try discriminate; intros _.
  - destruct s; split; reflexivity.
  - unfold add, neg, SFopp, SFadd. rewrite Z.min_id, shl_align_same. simpl.
    destruct s; simpl; rewrite Z.pos_sub_diag; split; reflexivity.
Qed.

Lemma zero_add_not_negative (q : float) :
  sign_or_nan false q -> (zero + q)%pf = q.
Proof.
  destruct q as [s | s | | s mq eq]; simpl; intros H; subst; reflexivity.
Qed.

Lemma isclose_sym (a b : float) : isclose a b = isclose b a.
Proof.
  unfold isclose, math_isclose.
  rewrite (eqb_sym b a), (orb_comm (is_inf b)).
  assert (H : fabs (a - b)%pf = fabs (b - a)%pf).
  { destruct (sub_swap b a) as [E | E]; rewrite E; [apply fabs_opp | reflexivity]. }
  rewrite H.
  destruct (a == b)%pf; [reflexivity | ].
  destruct (is_inf a || is_inf b); [reflexivity | ].
  now rewrite (orb_comm (fabs (b - a) <= fabs (default_rel_tol * a))%pf).
Qed.

Lemma ltb_irrefl (a : float) : (a < a)%pf = false.
Proof.
  destruct (a < a)%pf eqn:E; [ | reflexivity].
  now rewrite (ltb_asym a a E) in E.
Qed.

(** ** Symmetry of the comparisons *)

(** X1: [==] is symmetric: for an operand the constructor accepts,
    [a == other] and [Vector(other) == a] give the same answer. *)
Theorem eq_symmetric (a : Vector) (other : pyval) (b : Vector) :
  __init__ [other] = Ok b ->
  __eq__ a other = __eq__ b (PyVector a).
Proof.
  unfold __init__, __eq__. intros H.
  destruct (decompose [other]) as [[[x y] z] | e]; [ | discriminate H].
  simpl in H. injection H as <-. simpl.
  now rewrite (isclose_sym x), (isclose_sym y), (isclose_sym z).
Qed.

Lemma eq_symmetric_witness :
  __eq__ (vec_of_Z 1 2 0) (PySeq [PyInt 1; PyInt 2])
  = __eq__ (mkVector (of_Z 1) (of_Z 2) zero) (PyVector (vec_of_Z 1 2 0)).
Proof.
  apply (eq_symmetric (vec_of_Z 1 2 0) (PySeq [PyInt 1; PyInt 2])).
  reflexivity.
Defined.

(** X2: [<] is a strict comparison: no vector is below itself, and two
    vectors are never each below the other. *)
Theorem lt_strict (a b : Vector) :
  __lt__ a (PyVector a) = Ok false
  /\ (__lt__ a (PyVector b) = Ok true -> __lt__ b (PyVector a) = Ok false).
Proof.
  unfold __lt__. simpl. split.
  - rewrite !ltb_irrefl.
    now destruct (_x a == _x a)%pf, (_y a == _y a)%pf.
  - rewrite (eqb_sym (_x b)), (eqb_sym (_y b)).
    destruct (_x a == _x b)%pf.
    + destruct (_y a == _y b)%pf; intros H; injection H as H;
        now rewrite (ltb_asym _ _ H).
    + intros H; injection H as H. now rewrite (ltb_asym _ _ H).
Qed.

Lemma lt_strict_witness :
  __lt__ (vec_of_Z 2 0 0) (PyVector (vec_of_Z 1 5 5)) = Ok false.
Proof.
  apply (proj2 (lt_strict (vec_of_Z 1 5 5) (vec_of_Z 2 0 0))).
  vm_compute. reflexivity.
Defined.

(** ** Products *)

Lemma same_value_refl (f : float) : same_value f f.
Proof. unfold same_value. destruct (is_nan f); auto. Qed.

(** X3: the dot product is symmetric: for an operand the constructor
    accepts, [a.dot(other)] and [Vector(other).dot(a)] both return, and
    they return the same value: the same float, or a NaN both. *)
Theorem dot_symmetric (a : Vector) (other : pyval) (b : Vector) :
  __init__ [other] = Ok b ->
  exists f g,
    VectorRest.dot a other = Ok f
    /\ VectorRest.dot b (PyVector a) = Ok g
    /\ same_value f g.
Proof.
  unfold __init__, VectorRest.dot. intros H.
  destruct (decompose [other]) as [[[x y] z] | e]; [ | discriminate H].
  simpl in H. injection H as <-. simpl.
  rewrite (mul_comm x), (mul_comm y), (mul_comm z).
  eexists. eexists. split; [reflexivity | split; [reflexivity | ]].
  apply same_value_refl.
Qed.

Lemma dot_symmetric_witness :
  exists f g,
    VectorRest.dot (vec_of_Z 1 2 3) (PySeq [PyInt 4; PyInt 5; PyInt 6]) = Ok f
    /\ VectorRest.dot (vec_of_Z 4 5 6) (PyVector (vec_of_Z 1 2 3)) = Ok g
    /\ same_value f g.
Proof.
  apply (dot_symmetric (vec_of_Z 1 2 3) (PySeq [PyInt 4; PyInt 5; PyInt 6])).
  reflexivity.
Defined.

(** X4: the cross product of a vector with itself is exactly
    (0.0, 0.0, 0.0), provided the pairwise products of its components are
    finite (no overflow, no NaN). *)
Theorem cross_self (a : Vector) :
  is_finite (_y a * _z a)%pf = true ->
  is_finite (_z a * _x a)%pf = true ->
  is_finite (_x a * _y a)%pf = true ->
  VectorRest.cross a (PyVector a) = Ok (mkVector zero zero zero).
Proof.
  intros Hyz Hzx Hxy. unfold VectorRest.cross. simpl.
  rewrite (mul_comm (_z a) (_y a)), (mul_comm (_x a) (_z a)),
    (mul_comm (_y a) (_x a)).
  now rewrite !sub_self.
Qed.

Lemma cross_self_witness :
  VectorRest.cross (vec_of_Z 1 2 3) (PyVector (vec_of_Z 1 2 3))
  = Ok (mkVector zero zero zero).
Proof.
  apply (cross_self (vec_of_Z 1 2 3)); vm_compute; reflexivity.
Defined.

(** With an overflowing product the cross product of a vector with itself
    has a NaN component instead. *)
Example cross_self_overflow :
  VectorRest.cross (mkVector big big zero) (PyVector (mkVector big big zero))
  = Ok (mkVector zero zero nan).
Proof. vm_compute. reflexivity. Qed.

(** X5: [orthogonal] is orthogonal in the xy-plane, exactly: the dot product
    of v and [v.orthogonal(ccw)] is [z * z], the x and y terms cancelling to
    0.0, whenever [x * y] is finite. *)
Theorem dot_orthogonal (v : Vector) (ccw : bool) :
  is_finite (_x v * _y v)%pf = true ->
  VectorRest.dot v (PyVector (orthogonal v ccw)) = Ok (_z v * _z v)%pf.
Proof.
  intros H. unfold VectorRest.dot. destruct (add_opp_self _ H) as [H1 H2].
  destruct ccw; simpl; f_equal.
  - rewrite mul_opp_r, (mul_comm (_y v)), H1.
    apply zero_add_not_negative, square_not_negative.
  - rewrite mul_opp_r, (mul_comm (_y v)), H2.
    apply zero_add_not_negative, square_not_negative.
Qed.

Lemma dot_orthogonal_witness :
  VectorRest.dot (vec_of_Z 3 4 0) (PyVector (orthogonal (vec_of_Z 3 4 0) true))
  = Ok (of_Z 0 * of_Z 0)%pf.
Proof.
  apply (dot_orthogonal (vec_of_Z 3 4 0) true). vm_compute. reflexivity.
Defined.

(** ** Distance *)

Lemma square_sub_swap (p q : float) :
  ((q - p) * (q - p))%pf = ((p - q) * (p - q))%pf.
Proof.
  destruct (sub_swap p q) as [E | E]; rewrite E;
    [apply mul_opp_opp | reflexivity].
Qed.

(** X6: the distance is symmetric: for two arguments the constructor
    accepts, [distance(p1, p2)] and [distance(p2, p1)] return the same
    value (the same float, or a NaN both), or raise [OverflowError] both,
    under every C library. *)
Theorem distance_symmetric (m : Libm) (p1 p2 : pyval) (a b : Vector) :
  __init__ [p1] = Ok a -> __init__ [p2] = Ok b ->
  (exists f g,
      VectorRest.distance_fn m p1 p2 = Ok f
      /\ VectorRest.distance_fn m p2 p1 = Ok g
      /\ same_value f g)
  \/ (VectorRest.distance_fn m p1 p2 = Raise OverflowError
      /\ VectorRest.distance_fn m p2 p1 = Raise OverflowError).
Proof.
  intros Ha Hb.
  assert (E : VectorRest.distance_fn m p2 p1 = VectorRest.distance_fn m p1 p2).
  { unfold VectorRest.distance_fn, VectorRest.distance.
    rewrite Ha, Hb. simpl.
    unfold magnitude, magnitude_square. simpl.
    now rewrite (square_sub_swap (_x a)), (square_sub_swap (_y a)),
      (square_sub_swap (_z a)). }
  rewrite E. unfold VectorRest.distance_fn, VectorRest.distance.
  rewrite Ha, Hb. simpl.
  destruct (magnitude_outcome m
              (mkVector (_x b - _x a) (_y b - _y a) (_z b - _z a))%pf)
    as [[f Hf] | Hf].
  - left. exists f, f. repeat split; try exact Hf. apply same_value_refl.
  - right. split; exact Hf.
Qed.

Lemma distance_symmetric_witness :
  (exists f g,
      VectorRest.distance_fn stub_libm (PySeq [PyInt 1; PyInt 2]) (PyVector (vec_of_Z 4 6 0))
      = Ok f
      /\ VectorRest.distance_fn stub_libm (PyVector (vec_of_Z 4 6 0)) (PySeq [PyInt 1; PyInt 2])
         = Ok g
      /\ same_value f g)
  \/ (VectorRest.distance_fn stub_libm (PySeq [PyInt 1; PyInt 2]) (PyVector (vec_of_Z 4 6 0))
      = Raise OverflowError
      /\ VectorRest.distance_fn stub_libm (PyVector (vec_of_Z 4 6 0)) (PySeq [PyInt 1; PyInt 2])
         = Raise OverflowError).
Proof.
  apply (distance_symmetric stub_libm (PySeq [PyInt 1; PyInt 2]) (PyVector (vec_of_Z 4 6 0))
           (mkVector (of_Z 1) (of_Z 2) zero) (vec_of_Z 4 6 0));
    reflexivity.
Defined.

(** ** Division *)

(** X7: dividing a vector by a zero of either sign (0, 0.0 or -0.0) raises
    [ZeroDivisionError]; by any other scalar [float] accepts it returns the
    component-wise quotients. *)
Theorem truediv_by_scalar (self : Vector) (other : pyval) (s : float) :
  py_float other = Ok s ->
  (is_zero s = true ->
   VectorRest.__truediv__ self other = RaisesZeroDivisionError)
  /\ (is_zero s = false ->
      VectorRest.__truediv__ self other
      = Returns (mkVector (SFdiv prec emax (_x self) s)
                          (SFdiv prec emax (_y self) s)
                          (SFdiv prec emax (_z self) s))).
Proof.
  intros Hs. unfold VectorRest.__truediv__, py_truediv. rewrite Hs. simpl.
  split; intros Hz; rewrite Hz; reflexivity.
Qed.

Lemma truediv_by_scalar_witness :
  VectorRest.__truediv__ (vec_of_Z 1 2 3) (PyInt 0) = RaisesZeroDivisionError
  /\ VectorRest.__truediv__ (vec_of_Z 2 4 6) (PyInt 2) = Returns (vec_of_Z 1 2 3).
Proof.
  split.
  - apply (proj1 (truediv_by_scalar (vec_of_Z 1 2 3) (PyInt 0) (of_Z 0) eq_refl)).
    reflexivity.
  - apply (proj2 (truediv_by_scalar (vec_of_Z 2 4 6) (PyInt 2) (of_Z 2) eq_refl)).
    reflexivity.
Defined.

(** The three quotients of [s / v] when v has a zero component. *)
Lemma rtruediv_cases (s x y z : float) :
  is_zero x || is_zero y || is_zero z = true ->
  (a <~ py_truediv s x ;; b <~ py_truediv s y ;; c <~ py_truediv s z ;;
   Returns (new a b c)) = RaisesZeroDivisionError.
Proof.
  unfold py_truediv. intros H.
  destruct (is_zero x); [reflexivity | ].
  destruct (is_zero y); [reflexivity | ].
  destruct (is_zero z); [reflexivity | discriminate H].
Qed.

(** X8: dividing a scalar by a vector, [s / v], raises [ZeroDivisionError]
    as soon as one component of v is a zero. *)
Theorem rtruediv_zero_component (self : Vector) (other : pyval) (s : float) :
  py_float other = Ok s ->
  is_zero (_x self) || is_zero (_y self) || is_zero (_z self) = true ->
  VectorRest.__rtruediv__ self other = RaisesZeroDivisionError.
Proof.
  intros Hs Hz. unfold VectorRest.__rtruediv__. rewrite Hs. simpl.
  now apply rtruediv_cases.
Qed.

Lemma rtruediv_zero_component_witness :
  VectorRest.__rtruediv__ (vec_of_Z 1 2 0) (PyInt 6) = RaisesZeroDivisionError.
Proof.
  apply (rtruediv_zero_component (vec_of_Z 1 2 0) (PyInt 6) (of_Z 6));
    reflexivity.
Defined.

(** X9: [normalize] raises [ZeroDivisionError] on every vector whose
    squared magnitude is a zero, the null vector first of all, whatever the
    requested length and the C library; [project] onto such a vector raises
    it as well. *)
Theorem normalize_zero_magnitude (m : Libm) (self : Vector) (length : float) (other : pyval) :
  is_zero (magnitude_square self) = true ->
  VectorRest.normalize m self length = RaisesZeroDivisionError
  /\ VectorRest.project m self other = RaisesZeroDivisionError.
Proof.
  intros H.
  assert (Hmag : magnitude m self = Ok zero).
  { unfold magnitude, Math.pow_half.
    destruct (magnitude_square self); try discriminate H; reflexivity. }
  unfold VectorRest.project, VectorRest.normalize. rewrite Hmag.
  split; reflexivity.
Qed.

Lemma normalize_zero_magnitude_witness :
  VectorRest.normalize stub_libm NULLVEC (lit 1) = RaisesZeroDivisionError
  /\ VectorRest.project stub_libm NULLVEC (PyVector (vec_of_Z 1 2 3))
     = RaisesZeroDivisionError.
Proof.
  apply (normalize_zero_magnitude stub_libm NULLVEC (lit 1) (PyVector (vec_of_Z 1 2 3))).
  reflexivity.
Defined.

(** The squared magnitude of a tiny vector underflows to zero, so
    [normalize] raises on it too. *)
Example normalize_underflow :
  VectorRest.normalize stub_libm (mkVector (lit 1e-170) zero zero) (lit 1)
  = RaisesZeroDivisionError.
Proof. vm_compute. reflexivity. Qed.

(** ** Magnitude *)

(** X10: the squared magnitude is never negative, so [magnitude] never
    takes the square root of a negative number: it returns a float or
    raises [OverflowError], under every C library. *)
Theorem magnitude_real (m : Libm) (v : Vector) :
  (magnitude_square v < zero)%pf = false
  /\ ((exists f, magnitude m v = Ok f) \/ magnitude m v = Raise OverflowError).
Proof.
  split; [apply magnitude_square_not_negative | apply magnitude_outcome].
Qed.

(** ** Null test and truth value *)

Lemma isclose_zero_cases (a : float) :
  (is_zero a = true -> isclose a zero = true)
  /\ (is_nan a || is_inf a = true -> isclose a zero = false).
Proof.
  destruct a as [s | s | | s ma ea]; split; intros H; try discriminate H;
    try reflexivity; destruct s; reflexivity.
Qed.

(** X11: a vector whose components are all zeros, of either sign, is null
    and false as a truth value; a vector with a NaN or an infinite
    component is not null and is true. *)
Theorem is_null_edges (v : Vector) :
  (is_zero (_x v) && is_zero (_y v) && is_zero (_z v) = true ->
   VectorRest.is_null v = Ok true /\ VectorRest.__bool__ v = Ok false)
  /\ (has_nan v || (is_inf (_x v) || is_inf (_y v) || is_inf (_z v)) = true ->
      VectorRest.is_null v = Ok false /\ VectorRest.__bool__ v = Ok true).
Proof.
  unfold VectorRest.__bool__, VectorRest.is_null, __eq__, has_nan. simpl.
  change (S754_zero false) with zero.
  destruct (isclose_zero_cases (_x v)) as [Zx Nx].
  destruct (isclose_zero_cases (_y v)) as [Zy Ny].
  destruct (isclose_zero_cases (_z v)) as [Zz Nz].
  split; intros H.
  - apply andb_true_iff in H as [H Hz]. apply andb_true_iff in H as [Hx Hy].
    rewrite (Zx Hx), (Zy Hy), (Zz Hz). split; reflexivity.
  - assert (E : isclose (_x v) zero && isclose (_y v) zero
                && isclose (_z v) zero = false).
    { destruct (is_nan (_x v) || is_inf (_x v)) eqn:Ex;
        [rewrite (Nx eq_refl); reflexivity | ].
      destruct (is_nan (_y v) || is_inf (_y v)) eqn:Ey;
        [rewrite (Ny eq_refl); now rewrite andb_false_r | ].
      destruct (is_nan (_z v) || is_inf (_z v)) eqn:Ez;
        [rewrite (Nz eq_refl); now rewrite andb_false_r | ].
      exfalso.
      destruct (is_nan (_x v)), (is_inf (_x v)), (is_nan (_y v)),
        (is_inf (_y v)), (is_nan (_z v)), (is_inf (_z v)); discriminate. }
    rewrite E. split; reflexivity.
Qed.

Lemma is_null_edges_witness :
  (VectorRest.is_null (mkVector zero (- zero)%pf zero) = Ok true
   /\ VectorRest.__bool__ (mkVector zero (- zero)%pf zero) = Ok false)
  /\ (VectorRest.is_null (mkVector zero nan zero) = Ok false
      /\ VectorRest.__bool__ (mkVector zero nan zero) = Ok true).
Proof.
  split.
  - apply (proj1 (is_null_edges (mkVector zero (- zero)%pf zero))). reflexivity.
  - apply (proj2 (is_null_edges (mkVector zero nan zero))). reflexivity.
Defined.

(** ** Lists of vectors *)

Lemma generate_items_spec (items : list pyval) (vs : list Vector) :
  VectorRest.generate_items items = Ok vs
  <-> Forall2 (fun item v => __init__ [item] = Ok v) items vs.
Proof.
  revert vs. induction items as [ | item rest IH]; intros vs; simpl.
  - split.
    + intros H. injection H as <-. constructor.
    + intros H. inversion H. reflexivity.
  - split.
    + destruct (__init__ [item]) as [v | e] eqn:Ev; [ | discriminate]. simpl.
      destruct (VectorRest.generate_items rest) as [vs' | e] eqn:Er;
        [ | discriminate]. simpl.
      intros H. injection H as <-. constructor; [exact Ev | now apply IH].
    + intros H. inversion H as [ | item' v rest' vs' Hv Hrest]; subst.
      rewrite Hv. simpl. apply IH in Hrest. rewrite Hrest. reflexivity.
Qed.

(** X12: [Vector.list] on a sequence returns a list exactly when the
    constructor accepts every item; the list then has one vector per item,
    in order, each the constructor's result on its item. *)
Theorem list_of_sequence (items : list pyval) (vs : list Vector) :
  VectorRest.list (PySeq items) = Ok vs
  <-> Forall2 (fun item v => __init__ [item] = Ok v) items vs.
Proof. apply generate_items_spec. Qed.

(** The first item the constructor rejects ends [Vector.list] with that
    item's error. *)
Lemma generate_items_first_error (ok : list pyval) (vs : list Vector)
    (bad : pyval) (rest : list pyval) (e : exn) :
  Forall2 (fun item v => __init__ [item] = Ok v) ok vs ->
  __init__ [bad] = Raise e ->
  VectorRest.generate_items (ok ++ bad :: rest) = Raise e.
Proof.
  intros Hok Hbad. induction Hok as [ | item v ok' vs' Hv _ IH]; simpl.
  - now rewrite Hbad.
  - rewrite Hv. simpl. now rewrite IH.
Qed.

(** X13: [Vector.list] raises the error of the first item the constructor
    rejects, whatever follows it. *)
Theorem list_first_error (ok : list pyval) (vs : list Vector)
    (bad : pyval) (rest : list pyval) (e : exn) :
  Forall2 (fun item v => __init__ [item] = Ok v) ok vs ->
  __init__ [bad] = Raise e ->
  VectorRest.list (PySeq (ok ++ bad :: rest)) = Raise e.
Proof. apply generate_items_first_error. Qed.

Lemma list_first_error_witness :
  VectorRest.list (PySeq ([PySeq [PyInt 1; PyInt 2]] ++ PyInt 5 :: [PyNone]))
  = Raise (ValueError invalid_arguments).
Proof.
  apply (list_first_error [PySeq [PyInt 1; PyInt 2]]
           [mkVector (of_Z 1) (of_Z 2) zero] (PyInt 5) [PyNone]).
  - constructor; [reflexivity | constructor].
  - reflexivity.
Defined.

(** ** The [isclose] method *)

Lemma lit_1em14 : lit 1e-14 = S754_finite false 6338253001141147 (-99).
Proof. vm_compute. reflexivity. Qed.

Lemma lit_1em12 : lit 1e-12 = S754_finite false 4951760157141521 (-92).
Proof. vm_compute. reflexivity. Qed.

(** What is at most [1e-14] is at most [1e-12]. *)
Lemma leb_tolerance_widen (d : float) :
  (d <= lit 1e-14)%pf = true -> (d <= lit 1e-12)%pf = true.
Proof.
  rewrite lit_1em14, lit_1em12.
  destruct d as [s | s | | s md ed].
  - reflexivity.
  - destruct s; [reflexivity | discriminate].
  - discriminate.
  - destruct s; [reflexivity | ].
    unfold leb, SFleb, SFcompare.
    destruct (Z.compare_spec ed (-99)) as [E | E | E];
      destruct (Z.compare_spec ed (-92)) as [E' | E' | E']; try lia;
      try reflexivity; discriminate.
Qed.

Lemma isclose_widen (a b : float) :
  isclose a b = true ->
  math_isclose a b default_rel_tol VectorRest.isclose_default_abs_tol = true.
Proof.
  unfold isclose, math_isclose, VectorRest.isclose_default_abs_tol.
  destruct (a == b)%pf; [reflexivity | ].
  destruct (is_inf a || is_inf b); [discriminate | ].
  intros H. apply orb_true_iff in H as [H | H].
  - now rewrite H.
  - rewrite (leb_tolerance_widen _ H). apply orb_true_r.
Qed.

(** X14: whatever [==] accepts, the [isclose] method accepts with its
    default tolerance [1e-12]; and a negative tolerance is rejected with
    [ValueError] once the operand has been turned into a vector. *)
Theorem isclose_method_edges (a : Vector) (other : pyval) :
  (__eq__ a other = Ok true ->
   VectorRest.isclose_method a other VectorRest.isclose_default_abs_tol = Ok true)
  /\ (forall b abs_tol,
        __init__ [other] = Ok b -> (abs_tol < zero)%pf = true ->
        VectorRest.isclose_method a other abs_tol
        = Raise (ValueError tolerances_must_be_non_negative)).
Proof.
  unfold __eq__, VectorRest.isclose_method, __init__. split.
  - destruct (decompose [other]) as [[[x y] z] | e]; [ | discriminate]. simpl.
    intros H. injection H as H.
    apply andb_true_iff in H as [H Hz]. apply andb_true_iff in H as [Hx Hy].
    change (VectorRest.isclose_default_abs_tol < zero)%pf with false. cbv iota.
    now rewrite (isclose_widen _ _ Hx), (isclose_widen _ _ Hy), (isclose_widen _ _ Hz).
  - intros b abs_tol Hb Hneg.
    destruct (decompose [other]) as [[[x y] z] | e]; [ | discriminate Hb].
    simpl. now rewrite Hneg.
Qed.

Lemma isclose_method_edges_witness :
  VectorRest.isclose_method (vec_of_Z 1 2 3) (PySeq [PyInt 1; PyInt 2; PyInt 3])
    VectorRest.isclose_default_abs_tol = Ok true
  /\ VectorRest.isclose_method (vec_of_Z 1 2 3) (PySeq [PyInt 1; PyInt 2; PyInt 3])
       (lit (-1)) = Raise (ValueError tolerances_must_be_non_negative).
Proof.
  destruct (isclose_method_edges (vec_of_Z 1 2 3) (PySeq [PyInt 1; PyInt 2; PyInt 3]))
    as [H1 H2].
  split.
  - apply H1. vm_compute. reflexivity.
  - apply (H2 (vec_of_Z 1 2 3)); vm_compute; reflexivity.
Defined.

(** ** Arity and copies *)

(** X15: the constructor's arities: no argument gives (0.0, 0.0, 0.0); a
    Vector argument gives that vector again, component for component; more
    than three arguments raise [ValueError] whatever they are. *)
Theorem init_arities :
  __init__ [] = Ok (mkVector zero zero zero)
  /\ (forall v, __init__ [PyVector v] = Ok v)
  /\ (forall args, (3 < List.length args)%nat ->
        __init__ args = Raise (ValueError invalid_arguments)).
Proof.
  split; [reflexivity | split].
  - intros [x y z]. reflexivity.
  - intros [ | a [ | b [ | c [ | d rest]]]] H; simpl in H; try lia. reflexivity.
Qed.

Lemma init_arities_witness :
  __init__ [PyInt 1; PyInt 2; PyInt 3; PyInt 4]
  = Raise (ValueError invalid_arguments).
Proof.
  apply (proj2 (proj2 init_arities)). simpl. lia.
Defined.

(** X16: for an operand that is not a scalar, [other - v] computed by
    [v.__rsub__(other)] is [Vector(other).__sub__(v)]: the right-hand
    subtraction has the direction of the left-hand one. *)
Theorem rsub_is_sub_swapped (self : Vector) (other : pyval) (b : Vector) :
  is_scalar other = false -> __init__ [other] = Ok b ->
  __rsub__ self other = __sub__ b (PyVector self).
Proof.
  unfold __rsub__, __sub__, __init__. intros Hs H. rewrite Hs.
  destruct (decompose [other]) as [[[x y] z] | e]; [ | discriminate H].
  simpl in H. injection H as <-. reflexivity.
Qed.

Lemma rsub_is_sub_swapped_witness :
  __rsub__ (vec_of_Z 1 2 3) (PySeq [PyInt 5; PyInt 7])
  = __sub__ (mkVector (of_Z 5) (of_Z 7) zero) (PyVector (vec_of_Z 1 2 3)).
Proof.
  apply (rsub_is_sub_swapped (vec_of_Z 1 2 3) (PySeq [PyInt 5; PyInt 7]));
    reflexivity.
Defined.

(** [replace] overrides exactly the components it is given: with no
    argument it returns the vector unchanged, and a float given for one
    component leaves the two others as they were. *)
Lemma replace_components (self : Vector) (f : float) :
  VectorRest.replace self PyNone PyNone PyNone = Ok self
  /\ VectorRest.replace self (PyFloat f) PyNone PyNone
     = Ok (mkVector f (_y self) (_z self))
  /\ VectorRest.replace self PyNone (PyFloat f) PyNone
     = Ok (mkVector (_x self) f (_z self))
  /\ VectorRest.replace self PyNone PyNone (PyFloat f)
     = Ok (mkVector (_x self) (_y self) f).
Proof. destruct self as [x y z]. repeat split. Qed.
